(** * Worktree NIFs of gitrekt: [apps/gitrekt/c_src/worktree.c]

    A shallow embedding of the three C functions of the file,
    [geef_worktree_free], [geef_worktree_add] and [geef_worktree_prune],
    followed by the properties of the worktree life cycle that can be
    settled on them.

    The C functions talk to two collaborators: the Erlang runtime (the
    [enif_*] functions, and the [geef_*] helpers declared in [geef.h]) and
    the libgit2 engine (the [git_*] functions).  Their answers are the
    fields of a [world]; every call that acquires, releases or hands over a
    resource is appended to a log, so that "released", "never released" and
    "released twice" are statements about that log.  An early [return] of
    the C code is an exception of the monad; the state survives it. *)

From Stdlib Require Import ZArith List String Bool Lia.
From Stdlib Require Import Strings.Byte.
From ExtLib Require Import Structures.Monad Structures.MonadState Structures.MonadExc.
From ExtLib Require Import Data.Monads.StateMonad Data.Monads.EitherMonad.
Import ListNotations.
Import MonadNotation.

Local Open Scope Z_scope.
Local Open Scope monad_scope.

(** ** Values of the runtime and of the engine *)

(** Addresses of resource objects, and the engine's opaque pointers. *)
Definition pointer := Z.
Definition git_repository := Z.
Definition git_reference := Z.
Definition git_worktree := Z.

(** The bytes an [ErlNifBinary] gives access to ([data], [size] bytes long). *)
Definition ErlNifBinary := list byte.

(** Erlang terms, as far as this file builds or inspects them.  [Badarg] is
    what [enif_make_badarg] returns; [GeefOom] and [GeefError] stand for the
    terms built by [geef_oom(env)] and [geef_error(env)], two helpers of
    [geef.c] that receive nothing but the environment. *)
Inductive ERL_NIF_TERM : Type :=
| Atom (name : string)
| Binary (bytes : list byte)
| Resource (obj : pointer)
| Tuple2 (a b : ERL_NIF_TERM)
| Badarg
| GeefOom
| GeefError.

Module atoms.
Definition ok : ERL_NIF_TERM := Atom "ok".
Definition error : ERL_NIF_TERM := Atom "error".
Definition undefined : ERL_NIF_TERM := Atom "undefined".
End atoms.

Definition enif_make_badarg : ERL_NIF_TERM := Badarg.
Definition geef_oom : ERL_NIF_TERM := GeefOom.
Definition geef_error : ERL_NIF_TERM := GeefError.
Definition enif_make_tuple2 (a b : ERL_NIF_TERM) : ERL_NIF_TERM := Tuple2 a b.

Definition bytes_eqb (a b : list byte) : bool :=
  if list_eq_dec Byte.byte_eq_dec a b then true else false.

(** [enif_is_identical]: the two terms are the same term. *)
Fixpoint enif_is_identical (a b : ERL_NIF_TERM) : bool :=
  match a, b with
  | Atom x, Atom y => String.eqb x y
  | Binary x, Binary y => bytes_eqb x y
  | Resource p, Resource q => p =? q
  | Tuple2 a1 a2, Tuple2 b1 b2 => enif_is_identical a1 b1 && enif_is_identical a2 b2
  | Badarg, Badarg => true
  | GeefOom, GeefOom => true
  | GeefError, GeefError => true
  | _, _ => false
  end.

(** [enif_inspect_binary] succeeds on binaries only. *)
Definition enif_inspect_binary (t : ERL_NIF_TERM) : option ErlNifBinary :=
  match t with
  | Binary b => Some b
  | _ => None
  end.

(** The resource objects of [geef.h] and [worktree.h]. *)
Record geef_repository : Type := { repository_repo : git_repository }.

Record geef_worktree : Type :=
  { worktree_repo : pointer;            (* geef_repository *repo *)
    worktree_worktree : git_worktree }. (* git_worktree *worktree *)

Inductive resource : Type :=
| RepositoryObj (r : geef_repository)
| WorktreeObj (w : geef_worktree).

(** The option structures of [git2/worktree.h].  [add_ref] is the [ref]
    field the commented-out assignment of [geef_worktree_add] names; [None]
    is the NULL pointer. *)
Record git_worktree_add_options : Type :=
  { add_version : Z;
    add_lock : Z;
    add_ref : option git_reference }.

Record git_worktree_prune_options : Type :=
  { prune_version : Z;
    prune_flags : Z }.

(** The three binaries [geef_worktree_add] declares. *)
Inductive buffer : Type := buf_name | buf_path | buf_ref.

Definition buffer_eqb (a b : buffer) : bool :=
  match a, b with
  | buf_name, buf_name | buf_path, buf_path | buf_ref, buf_ref => true
  | _, _ => false
  end.

(** ** The log of calls *)

Inductive call : Type :=
| C_geef_string_to_bin (s : string) (rc : Z)
| C_enif_make_binary (b : ErlNifBinary)
| C_enif_alloc_resource (p : option pointer)
| C_geef_terminate_binary (b : buffer) (ok : bool)
| C_git_reference_lookup (repo : git_repository) (name : list byte)
                         (rc : Z) (out : git_reference)
| C_enif_release_binary (b : buffer)
| C_git_worktree_add (repo : git_repository) (name path : list byte)
                     (opts : git_worktree_add_options)
                     (rc : Z) (out : git_worktree)
| C_git_reference_free (r : git_reference)
| C_enif_make_resource (p : pointer)
| C_enif_release_resource (p : pointer)
| C_enif_keep_resource (p : pointer)
| C_git_worktree_free (wt : git_worktree)
| C_git_worktree_prune (wt : git_worktree) (opts : git_worktree_prune_options)
                       (rc : Z).

(** ** The collaborators *)

(** Everything the file takes from outside: the version macros and option
    initialisers of the libgit2 headers, the answers of the engine, and the
    answers of the runtime's allocating functions.  [enif_alloc_resource]
    answers NULL ([None]) or the address of a fresh object together with the
    uninitialised contents found there. *)
Record world : Type :=
  { LIBGIT2_VER_MAJOR : Z;
    LIBGIT2_VER_MINOR : Z;
    GIT_WORKTREE_ADD_OPTIONS_INIT : git_worktree_add_options;
    GIT_WORKTREE_PRUNE_OPTIONS_INIT : git_worktree_prune_options;
    GIT_WORKTREE_PRUNE_VALID : Z;
    git_reference_lookup : git_repository -> list byte -> Z * git_reference;
    git_worktree_add : git_repository -> list byte -> list byte ->
                       git_worktree_add_options -> Z * git_worktree;
    git_worktree_prune : git_worktree -> git_worktree_prune_options -> Z;
    enif_alloc_resource : option (pointer * geef_worktree);
    geef_terminate_binary : buffer -> ErlNifBinary -> option ErlNifBinary;
    geef_string_to_bin : string -> Z * ErlNifBinary }.

(** ** State and monad *)

Record nif_state : Type :=
  { resources : list (pointer * resource);
    calls : list call }.

Definition NIF : Type -> Type := eitherT ERL_NIF_TERM (state nif_state).

(** [return t;] in the middle of a C function. *)
Definition return_ {A : Type} (t : ERL_NIF_TERM) : NIF A := raise t.

Definition log (c : call) : NIF unit :=
  s <- get ;;
  put {| resources := resources s; calls := calls s ++ [c] |}.

Definition or_return {A : Type} (o : option A) (t : ERL_NIF_TERM) : NIF A :=
  match o with
  | Some a => ret a
  | None => return_ t
  end.

(** Running a NIF: the term it returns, by an early or by the last
    [return], and the final state. *)
Definition run_nif (m : NIF ERL_NIF_TERM) (s : nif_state) : ERL_NIF_TERM * nif_state :=
  let (r, s') := runState (unEitherT m) s in
  (match r with inl t => t | inr t => t end, s').

(** ** The resource table *)

Fixpoint find_resource (p : pointer) (rs : list (pointer * resource)) : option resource :=
  match rs with
  | [] => None
  | (q, r) :: rest => if q =? p then Some r else find_resource p rest
  end.

Fixpoint update_worktree (p : pointer) (f : geef_worktree -> geef_worktree)
         (rs : list (pointer * resource)) : list (pointer * resource) :=
  match rs with
  | [] => []
  | (q, r) :: rest =>
      if q =? p
      then (q, match r with WorktreeObj w => WorktreeObj (f w) | _ => r end) :: rest
      else (q, r) :: update_worktree p f rest
  end.

(** [enif_get_resource(env, t, geef_repository_type, &repo)]: the term names
    a live object of the requested type. *)
Definition get_repository (rs : list (pointer * resource)) (t : ERL_NIF_TERM)
  : option (pointer * geef_repository) :=
  match t with
  | Resource p =>
      match find_resource p rs with
      | Some (RepositoryObj r) => Some (p, r)
      | _ => None
      end
  | _ => None
  end.

(** [enif_get_resource(env, t, geef_worktree_type, &worktree)]. *)
Definition get_worktree (rs : list (pointer * resource)) (t : ERL_NIF_TERM)
  : option (pointer * geef_worktree) :=
  match t with
  | Resource p =>
      match find_resource p rs with
      | Some (WorktreeObj w) => Some (p, w)
      | _ => None
      end
  | _ => None
  end.

Definition store_worktree (p : pointer) (f : geef_worktree -> geef_worktree) : NIF unit :=
  s <- get ;;
  put {| resources := update_worktree p f (resources s); calls := calls s |}.

(** ** The three functions *)

(** [geef_worktree_free(env, cd)] (lines 7-12), the destructor the runtime
    runs on the object [cd] points to. *)
Definition geef_worktree_free (cd : geef_worktree) : NIF unit :=
  let worktree := cd in                                        (* l.9 *)
  log (C_enif_release_resource (worktree_repo worktree)) ;;    (* l.10 *)
  log (C_git_worktree_free (worktree_worktree worktree)).      (* l.11 *)

(** The condition of the [#if] of lines 17 and 94. *)
Definition version_gate (w : world) : bool :=
  (LIBGIT2_VER_MAJOR w <? 1) && (LIBGIT2_VER_MINOR w <? 27).

(** The block both NIFs compile to when the condition holds (lines 18-21
    and 95-98). *)
Definition libgit2_version_required (w : world) : NIF ERL_NIF_TERM :=
  let '(rc, bin) := geef_string_to_bin w "libgit2 version >= 0.27.x required" in
  log (C_geef_string_to_bin "libgit2 version >= 0.27.x required" rc) ;;
  if rc <? 0 then return_ geef_error
  else
    log (C_enif_make_binary bin) ;;
    ret (enif_make_tuple2 atoms.ok (Binary bin)).

(** [geef_terminate_binary(&bin)]: zero on failure. *)
Definition terminate (w : world) (which : buffer) (bin : ErlNifBinary)
  : NIF (option ErlNifBinary) :=
  let r := geef_terminate_binary w which bin in
  log (C_geef_terminate_binary which (match r with Some _ => true | None => false end)) ;;
  ret r.

(** [geef_worktree_add(env, argc, argv)] (lines 14-89).  The marks on the
    right are the lines of the C function. *)
Definition geef_worktree_add (w : world) (argv : nat -> ERL_NIF_TERM) : NIF ERL_NIF_TERM :=
  if version_gate w then libgit2_version_required w
  else
    s <- get ;;                                                       (* l.29 *)
    '(repo_p, repo) <- or_return (get_repository (resources s) (argv 0%nat))
                                 enif_make_badarg ;;

    let a := enif_alloc_resource w in                                 (* l.32 *)
    log (C_enif_alloc_resource (option_map fst a)) ;;
    '(worktree, fresh) <- or_return a geef_oom ;;
    s <- get ;;
    put {| resources := (worktree, WorktreeObj fresh) :: resources s;
           calls := calls s |} ;;

    name_bin <- or_return (enif_inspect_binary (argv 1%nat))          (* l.36 *)
                          enif_make_badarg ;;
    t <- terminate w buf_name name_bin ;;                             (* l.39 *)
    name_bin <- or_return t geef_oom ;;

    path_bin <- or_return (enif_inspect_binary (argv 2%nat))          (* l.42 *)
                          enif_make_badarg ;;
    t <- terminate w buf_path path_bin ;;                             (* l.45 *)
    path_bin <- or_return t geef_oom ;;

    let opts := GIT_WORKTREE_ADD_OPTIONS_INIT w in                    (* l.48 *)
    (* l.49-55; [ref_bin] is [Some] exactly when [override] is 1 *)
    ref_bin <- (if enif_is_identical (argv 3%nat) atoms.undefined then ret None
                else match enif_inspect_binary (argv 3%nat) with
                     | Some b => ret (Some b)
                     | None => return_ enif_make_badarg
                     end) ;;

    ref_bin <- match ref_bin with                                     (* l.57 *)
               | None => ret None
               | Some b =>
                   t <- terminate w buf_ref b ;;
                   match t with
                   | Some b' => ret (Some b')
                   | None => return_ atoms.error                      (* l.58 *)
                   end
               end ;;

    ref <- match ref_bin with                                         (* l.61 *)
           | None => ret None
           | Some b =>
               let '(rc, r) := git_reference_lookup w (repository_repo repo) b in
               log (C_git_reference_lookup (repository_repo repo) b rc r) ;;
               if rc <? 0 then return_ geef_error                     (* l.63 *)
               else
                 (* l.64-65: the assignment [opts.ref = ref] is commented
                    out under a TODO; [opts] stays as it is *)
                 log (C_enif_release_binary buf_ref) ;;               (* l.66 *)
                 ret (Some r)
           end ;;

    let '(rc, out) :=                                                 (* l.69 *)
      git_worktree_add w (repository_repo repo) name_bin path_bin opts in
    log (C_git_worktree_add (repository_repo repo) name_bin path_bin opts rc out) ;;
    (if rc <? 0 then
       (* l.70: [enif_release_resource(worktree)] is commented out *)
       return_ geef_error                                             (* l.71 *)
     else
       store_worktree worktree
         (fun o => {| worktree_repo := worktree_repo o; worktree_worktree := out |})) ;;

    log (C_enif_release_binary buf_name) ;;                           (* l.74 *)
    log (C_enif_release_binary buf_path) ;;                           (* l.75 *)

    match ref with                                                    (* l.77 *)
    | None => ret tt
    | Some r =>
        log (C_git_reference_free r) ;;                               (* l.78 *)
        log (C_enif_release_binary buf_ref)                           (* l.79 *)
    end ;;

    let worktree_term := Resource worktree in                         (* l.82 *)
    log (C_enif_make_resource worktree) ;;
    log (C_enif_release_resource worktree) ;;                         (* l.83 *)
    store_worktree worktree                                           (* l.84 *)
      (fun o => {| worktree_repo := repo_p; worktree_worktree := worktree_worktree o |}) ;;
    log (C_enif_keep_resource repo_p) ;;                              (* l.85 *)

    ret (enif_make_tuple2 atoms.ok worktree_term).                    (* l.87 *)

(** [geef_worktree_prune(env, argc, argv)] (lines 91-113). *)
Definition geef_worktree_prune (w : world) (argv : nat -> ERL_NIF_TERM) : NIF ERL_NIF_TERM :=
  if version_gate w then libgit2_version_required w
  else
    s <- get ;;                                                       (* l.102 *)
    '(_, worktree) <- or_return (get_worktree (resources s) (argv 0%nat))
                                enif_make_badarg ;;

    let opts := GIT_WORKTREE_PRUNE_OPTIONS_INIT w in                  (* l.105 *)
    let opts :=                                                       (* l.106 *)
      {| prune_version := prune_version opts;
         prune_flags := Z.lor (prune_flags opts) (GIT_WORKTREE_PRUNE_VALID w) |} in
    let rc := git_worktree_prune w (worktree_worktree worktree) opts in (* l.107 *)
    log (C_git_worktree_prune (worktree_worktree worktree) opts rc) ;;
    if rc <? 0 then return_ geef_error                                (* l.108 *)
    else ret atoms.ok.                                                (* l.111 *)

(** ** Running the functions and reading the log *)

(** A call starts from the resource table of the runtime and an empty log. *)
Definition initial (rs : list (pointer * resource)) : nif_state :=
  {| resources := rs; calls := [] |}.

Definition run_add (w : world) (rs : list (pointer * resource))
           (argv : nat -> ERL_NIF_TERM) : ERL_NIF_TERM * nif_state :=
  run_nif (geef_worktree_add w argv) (initial rs).

Definition run_prune (w : world) (rs : list (pointer * resource))
           (argv : nat -> ERL_NIF_TERM) : ERL_NIF_TERM * nif_state :=
  run_nif (geef_worktree_prune w argv) (initial rs).

(** The log the destructor leaves. *)
Definition run_free (cd : geef_worktree) : list call :=
  calls (snd (runState (unEitherT (geef_worktree_free cd)) (initial []))).

(** The argument vector [argv] of a NIF call. *)
Definition args (l : list ERL_NIF_TERM) : nat -> ERL_NIF_TERM :=
  fun i => nth i l atoms.undefined.

Definition count (f : call -> bool) (l : list call) : nat :=
  List.length (filter f l).

Definition is_release_binary (b : buffer) (c : call) : bool :=
  match c with
  | C_enif_release_binary b' => buffer_eqb b b'
  | _ => false
  end.

Definition is_reference_free (r : git_reference) (c : call) : bool :=
  match c with
  | C_git_reference_free r' => r =? r'
  | _ => false
  end.

Definition is_release_resource (p : pointer) (c : call) : bool :=
  match c with
  | C_enif_release_resource p' => p =? p'
  | _ => false
  end.

Definition is_keep_resource (p : pointer) (c : call) : bool :=
  match c with
  | C_enif_keep_resource p' => p =? p'
  | _ => false
  end.

Definition is_make_resource (c : call) : bool :=
  match c with
  | C_enif_make_resource _ => true
  | _ => false
  end.

Definition is_worktree_add (c : call) : bool :=
  match c with
  | C_git_worktree_add _ _ _ _ _ _ => true
  | _ => false
  end.

(** The calls that give something back: the handle object, the reference,
    the terminated name and path. *)
Definition is_cleanup (c : call) : bool :=
  match c with
  | C_enif_release_resource _
  | C_git_reference_free _
  | C_enif_release_binary buf_name
  | C_enif_release_binary buf_path => true
  | _ => false
  end.

(** Calls into the libgit2 engine. *)
Definition is_engine_call (c : call) : bool :=
  match c with
  | C_git_reference_lookup _ _ _ _
  | C_git_worktree_add _ _ _ _ _ _
  | C_git_reference_free _
  | C_git_worktree_free _
  | C_git_worktree_prune _ _ _ => true
  | _ => false
  end.

(** The options a logged creation call was given. *)
Definition add_options_of (c : call) : option git_worktree_add_options :=
  match c with
  | C_git_worktree_add _ _ _ opts _ _ => Some opts
  | _ => None
  end.

(** The resource objects a term refers to. *)
Fixpoint term_resources (t : ERL_NIF_TERM) : list pointer :=
  match t with
  | Resource p => [p]
  | Tuple2 a b => term_resources a ++ term_resources b
  | _ => []
  end.

(** The four error values [geef_worktree_add] returns. *)
Definition is_error_return (t : ERL_NIF_TERM) : bool :=
  enif_is_identical t enif_make_badarg
  || enif_is_identical t geef_oom
  || enif_is_identical t geef_error
  || enif_is_identical t atoms.error.

(** A term tagged [ok]. *)
Definition is_ok_tuple (t : ERL_NIF_TERM) : bool :=
  match t with
  | Tuple2 tag _ => enif_is_identical tag atoms.ok
  | _ => false
  end.

(** The stages of [geef_worktree_add] and what it means for each to fail on
    an input: the condition of the corresponding [if] of the C function. *)
Inductive creation_fails (w : world) (rs : list (pointer * resource))
          (argv : nat -> ERL_NIF_TERM) : Prop :=
| fails_repository :
    get_repository rs (argv 0%nat) = None ->
    creation_fails w rs argv
| fails_alloc :
    enif_alloc_resource w = None ->
    creation_fails w rs argv
| fails_name :
    enif_inspect_binary (argv 1%nat) = None ->
    creation_fails w rs argv
| fails_name_memory : forall b,
    enif_inspect_binary (argv 1%nat) = Some b ->
    geef_terminate_binary w buf_name b = None ->
    creation_fails w rs argv
| fails_path :
    enif_inspect_binary (argv 2%nat) = None ->
    creation_fails w rs argv
| fails_path_memory : forall b,
    enif_inspect_binary (argv 2%nat) = Some b ->
    geef_terminate_binary w buf_path b = None ->
    creation_fails w rs argv
| fails_reference_argument :
    enif_is_identical (argv 3%nat) atoms.undefined = false ->
    enif_inspect_binary (argv 3%nat) = None ->
    creation_fails w rs argv
| fails_reference_memory : forall b,
    enif_is_identical (argv 3%nat) atoms.undefined = false ->
    enif_inspect_binary (argv 3%nat) = Some b ->
    geef_terminate_binary w buf_ref b = None ->
    creation_fails w rs argv
| fails_reference_lookup : forall p repo b b',
    get_repository rs (argv 0%nat) = Some (p, repo) ->
    enif_is_identical (argv 3%nat) atoms.undefined = false ->
    enif_inspect_binary (argv 3%nat) = Some b ->
    geef_terminate_binary w buf_ref b = Some b' ->
    fst (git_reference_lookup w (repository_repo repo) b') < 0 ->
    creation_fails w rs argv
| fails_worktree_add : forall p repo n n' d d',
    get_repository rs (argv 0%nat) = Some (p, repo) ->
    enif_inspect_binary (argv 1%nat) = Some n ->
    geef_terminate_binary w buf_name n = Some n' ->
    enif_inspect_binary (argv 2%nat) = Some d ->
    geef_terminate_binary w buf_path d = Some d' ->
    fst (git_worktree_add w (repository_repo repo) n' d'
           (GIT_WORKTREE_ADD_OPTIONS_INIT w)) < 0 ->
    creation_fails w rs argv.

(** ** Sample collaborators *)

(** A runtime with memory to spare: the binary grows by one NUL byte. *)
Definition terminate_ok (_ : buffer) (b : ErlNifBinary) : option ErlNifBinary :=
  Some (b ++ [x00]).

(** A runtime that cannot grow the binary [which]. *)
Definition terminate_fails_on (which : buffer) (b' : buffer) (b : ErlNifBinary)
  : option ErlNifBinary :=
  if buffer_eqb which b' then None else Some (b ++ [x00]).

(** An engine of version [major.minor] with the initialisers of libgit2's
    [worktree.h], whose lookup answers [lookup_rc] and reference 77, whose
    creation answers [add_rc] and worktree 88, and whose prune refuses
    unless [GIT_WORKTREE_PRUNE_VALID] is among the flags; the runtime puts
    the new handle at address 200. *)
Definition sample_world (major minor lookup_rc add_rc : Z)
           (term : buffer -> ErlNifBinary -> option ErlNifBinary) : world :=
  {| LIBGIT2_VER_MAJOR := major;
     LIBGIT2_VER_MINOR := minor;
     GIT_WORKTREE_ADD_OPTIONS_INIT :=
       {| add_version := 1; add_lock := 0; add_ref := None |};
     GIT_WORKTREE_PRUNE_OPTIONS_INIT := {| prune_version := 1; prune_flags := 0 |};
     GIT_WORKTREE_PRUNE_VALID := 1;
     git_reference_lookup := fun _ _ => (lookup_rc, 77);
     git_worktree_add := fun _ _ _ _ => (add_rc, 88);
     git_worktree_prune :=
       fun _ o => if Z.land (prune_flags o) 1 =? 1 then 0 else -1;
     enif_alloc_resource :=
       Some (200, {| worktree_repo := 0; worktree_worktree := 0 |});
     geef_terminate_binary := term;
     geef_string_to_bin := fun s => (0, list_byte_of_string s) |}.

Definition libgit2_0_28 : world := sample_world 0 28 0 0 terminate_ok.
Definition libgit2_0_26 : world := sample_world 0 26 0 0 terminate_ok.

(** A runtime that holds one repository object, at address 100. *)
Definition one_repository : list (pointer * resource) :=
  [(100, RepositoryObj {| repository_repo := 5 |})].

(** The same, and a worktree handle at address 200. *)
Definition one_worktree : list (pointer * resource) :=
  [(200, WorktreeObj {| worktree_repo := 100; worktree_worktree := 88 |});
   (100, RepositoryObj {| repository_repo := 5 |})].

Definition binary (s : string) : ERL_NIF_TERM := Binary (list_byte_of_string s).

(** [create(repo, name, path, reference)] and [prune(handle)] as the
    Erlang side calls them. *)
Definition create_args (name path reference : ERL_NIF_TERM) : nat -> ERL_NIF_TERM :=
  args [Resource 100; name; path; reference].

Definition prune_args : nat -> ERL_NIF_TERM := args [Resource 200].

(** ** Reading the log, continued *)

Definition is_reference_lookup (c : call) : bool :=
  match c with
  | C_git_reference_lookup _ _ _ _ => true
  | _ => false
  end.

(** The two engine calls that concern a reference. *)
Definition is_reference_call (c : call) : bool :=
  match c with
  | C_git_reference_lookup _ _ _ _
  | C_git_reference_free _ => true
  | _ => false
  end.

(** Every call that has to do with the fourth argument. *)
Definition concerns_reference (c : call) : bool :=
  match c with
  | C_git_reference_lookup _ _ _ _
  | C_git_reference_free _
  | C_geef_terminate_binary buf_ref _
  | C_enif_release_binary buf_ref => true
  | _ => false
  end.

(** The calls that create, share or end a resource object or a worktree. *)
Definition is_lifetime_call (c : call) : bool :=
  match c with
  | C_enif_alloc_resource _
  | C_enif_make_resource _
  | C_enif_release_resource _
  | C_enif_keep_resource _
  | C_git_worktree_free _ => true
  | _ => false
  end.

(** The worktree a logged creation call produced. *)
Definition created_worktree (c : call) : option git_worktree :=
  match c with
  | C_git_worktree_add _ _ _ _ _ out => Some out
  | _ => None
  end.

(** The options [geef_worktree_prune] builds at lines 105-106. *)
Definition prune_options (w : world) : git_worktree_prune_options :=
  {| prune_version := prune_version (GIT_WORKTREE_PRUNE_OPTIONS_INIT w);
     prune_flags := Z.lor (prune_flags (GIT_WORKTREE_PRUNE_OPTIONS_INIT w))
                          (GIT_WORKTREE_PRUNE_VALID w) |}.

(** ** The functions one after the other *)

(** The second element of [{ok, Handle}]. *)
Definition element2 (t : ERL_NIF_TERM) : ERL_NIF_TERM :=
  match t with
  | Tuple2 _ h => h
  | _ => t
  end.

(** [{ok, Handle} = add(...), prune(Handle)]: the prune runs on the resource
    table the creation left. *)
Definition run_add_then_prune (w : world) (rs : list (pointer * resource))
           (argv : nat -> ERL_NIF_TERM) : ERL_NIF_TERM * nif_state :=
  let (t, s) := run_add w rs argv in
  run_prune w (resources s) (args [element2 t]).

(** The destructor, run by the runtime on the object of the handle the
    creation returned. *)
Definition run_add_then_free (w : world) (rs : list (pointer * resource))
           (argv : nat -> ERL_NIF_TERM) : option (list call) :=
  let (t, s) := run_add w rs argv in
  match get_worktree (resources s) (element2 t) with
  | Some (_, cd) => Some (run_free cd)
  | None => None
  end.

(** [w], with a runtime that has no memory for a resource object. *)
Definition without_memory (w : world) : world :=
  {| LIBGIT2_VER_MAJOR := LIBGIT2_VER_MAJOR w;
     LIBGIT2_VER_MINOR := LIBGIT2_VER_MINOR w;
     GIT_WORKTREE_ADD_OPTIONS_INIT := GIT_WORKTREE_ADD_OPTIONS_INIT w;
     GIT_WORKTREE_PRUNE_OPTIONS_INIT := GIT_WORKTREE_PRUNE_OPTIONS_INIT w;
     GIT_WORKTREE_PRUNE_VALID := GIT_WORKTREE_PRUNE_VALID w;
     git_reference_lookup := git_reference_lookup w;
     git_worktree_add := git_worktree_add w;
     git_worktree_prune := git_worktree_prune w;
     enif_alloc_resource := None;
     geef_terminate_binary := geef_terminate_binary w;
     geef_string_to_bin := geef_string_to_bin w |}.

(** * Properties *)

(** ** Symbolic execution of a NIF *)

Ltac nif_unfold_in E :=
  cbv [run_add run_prune run_nif geef_worktree_add geef_worktree_prune
       libgit2_version_required terminate log or_return return_ store_worktree
       initial bind ret get put raise
       Monad_eitherT Monad_state MonadState_eitherT MonadState_state
       Exception_eitherT MonadT_eitherT MonadTrans.lift liftM
       unEitherT runState resources calls option_map fst snd] in E.

(** Split on the innermost test the run is stuck on. *)
Ltac nif_case_in E :=
  match type of E with
  | context [match ?x with _ => _ end] =>
      lazymatch x with
      | context [match _ with _ => _ end] => fail
      | _ => destruct x eqn:?
      end
  end.

Ltac nif_paths E :=
  repeat (nif_case_in E; cbv beta iota zeta in E);
  injection E as <- <-.

(** Two answers to the same question agree. *)
Ltac same_answers :=
  repeat match goal with
         | H1 : ?x = Some _, H2 : ?x = None |- _ => rewrite H1 in H2; discriminate H2
         | H1 : ?x = true, H2 : ?x = false |- _ => rewrite H1 in H2; discriminate H2
         | H1 : ?x = Some _, H2 : ?x = Some _ |- _ =>
             rewrite H1 in H2; injection H2 as; subst
         end.

Ltac negative_rc :=
  match goal with
  | H : fst ?x < 0, E : ?x = (_, _), B : (_ <? 0) = false |- _ =>
      rewrite E in H; cbn [fst] in H; apply Z.ltb_ge in B; lia
  end.

Lemma land_lor_flag (flags flag : Z) : Z.land (Z.lor flags flag) flag = flag.
Proof.
  apply Z.bits_inj'. intros n _.
  rewrite Z.land_spec, Z.lor_spec.
  destruct (Z.testbit flags n), (Z.testbit flag n); reflexivity.
Qed.

(** ** Destruction of a handle *)

(** C5, as amended.  For every worktree handle, one run of the destructor
    makes exactly two calls: it first releases the repository reference the
    handle holds and then frees the engine-level worktree resource, each
    once. *)
Theorem free_releases_repository_then_worktree (cd : geef_worktree) :
  run_free cd = [C_enif_release_resource (worktree_repo cd);
                 C_git_worktree_free (worktree_worktree cd)].
Proof. reflexivity. Qed.

(** C5, as stated, fails: on the handle a successful creation leaves behind,
    the engine-level worktree is not the first resource to go; the
    repository reference is. *)
Lemma free_order_counterexample :
  let cd := {| worktree_repo := 100; worktree_worktree := 88 |} in
  run_free cd <> [C_git_worktree_free 88; C_enif_release_resource 100] /\
  hd_error (run_free cd) = Some (C_enif_release_resource 100).
Proof. split; [discriminate | reflexivity]. Qed.

(** ** Creation: what the caller receives *)

(** Every run of [geef_worktree_add] on an engine that has worktrees ends in
    one of two ways: with one of the four error values and no term made for
    the handle, or with [{ok, Handle}] after every stage went through. *)
Lemma add_outcome (w : world) (rs : list (pointer * resource))
      (argv : nat -> ERL_NIF_TERM) :
  version_gate w = false ->
  (is_error_return (fst (run_add w rs argv)) = true /\
   term_resources (fst (run_add w rs argv)) = [] /\
   count is_make_resource (calls (snd (run_add w rs argv))) = 0%nat) \/
  (is_ok_tuple (fst (run_add w rs argv)) = true /\
   ~ creation_fails w rs argv).
Proof.
  intros Hg.
  destruct (run_add w rs argv) as [t s'] eqn:E. cbn [fst snd].
  nif_unfold_in E. rewrite Hg in E.
  nif_paths E.
  all: try (left; repeat split; reflexivity).
  all: right; split; [reflexivity |].
  all: intros Hf; destruct Hf; same_answers; try negative_rc.
Qed.

Ltac negative_answer :=
  match goal with
  | E : ?x = (_, _), B : (_ <? 0) = true |- fst ?x < 0 =>
      rewrite E; cbn [fst]; apply Z.ltb_lt in B; exact B
  end.

(** X18.  The stages of [creation_fails] are all the ways the creation can go
    wrong: a run returns an error value exactly when one of them fails. *)
Lemma add_error_iff_stage_fails (w : world) (rs : list (pointer * resource))
      (argv : nat -> ERL_NIF_TERM) :
  version_gate w = false ->
  is_error_return (fst (run_add w rs argv)) = true <-> creation_fails w rs argv.
Proof.
  intros Hg. split.
  - destruct (run_add w rs argv) as [t s'] eqn:E. cbn [fst snd].
    nif_unfold_in E. rewrite Hg in E.
    nif_paths E; intros He; try discriminate He.
    all: first
           [ solve [eapply fails_repository; eassumption]
           | solve [eapply fails_alloc; eassumption]
           | solve [eapply fails_name; eassumption]
           | solve [eapply fails_name_memory; eassumption]
           | solve [eapply fails_path; eassumption]
           | solve [eapply fails_path_memory; eassumption]
           | solve [eapply fails_reference_argument; eassumption]
           | solve [eapply fails_reference_memory; eassumption]
           | solve [eapply fails_reference_lookup;
                    [eassumption | eassumption | eassumption | eassumption
                    | negative_answer]]
           | solve [eapply fails_worktree_add;
                    [eassumption | eassumption | eassumption | eassumption
                    | eassumption | negative_answer]] ].
  - intros Hf.
    destruct (add_outcome w rs argv Hg) as [[H _] | [_ H]]; [exact H | contradiction].
Qed.

(** C8.  Whenever a stage of the creation fails (the repository argument,
    the allocation of the handle, the name, the path or the reference
    argument, the lookup of the reference, or the engine's creation call),
    the value returned is one of the error values, it refers to no resource
    object, and no term was ever made for the handle under construction. *)
Theorem add_failure_returns_no_handle (w : world) (rs : list (pointer * resource))
        (argv : nat -> ERL_NIF_TERM) :
  version_gate w = false ->
  creation_fails w rs argv ->
  is_error_return (fst (run_add w rs argv)) = true /\
  term_resources (fst (run_add w rs argv)) = [] /\
  count is_make_resource (calls (snd (run_add w rs argv))) = 0%nat.
Proof.
  intros Hg Hf.
  destruct (add_outcome w rs argv Hg) as [H | [_ H]]; [exact H | contradiction].
Qed.

Lemma add_failure_returns_no_handle_witness :
  let w := sample_world 0 28 (-1) 0 terminate_ok in
  let argv := create_args (binary "bad") (binary "/tmp/wt2") (binary "nonexistent-branch") in
  is_error_return (fst (run_add w one_repository argv)) = true /\
  term_resources (fst (run_add w one_repository argv)) = [] /\
  count is_make_resource (calls (snd (run_add w one_repository argv))) = 0%nat.
Proof.
  intros w argv.
  apply (add_failure_returns_no_handle w one_repository argv).
  - reflexivity.
  - apply (fails_reference_lookup w one_repository argv
             100 {| repository_repo := 5 |}
             (list_byte_of_string "nonexistent-branch")
             (list_byte_of_string "nonexistent-branch" ++ [x00]));
      try reflexivity.
Defined.

(** ** Pruning *)

(** C9.  On a valid worktree handle the engine's prune is called once, on
    the handle's worktree, with [GIT_WORKTREE_PRUNE_VALID] set among the
    flags of the options; with an engine that honours the flag for that
    worktree, whatever the state of its directory, the call returns [ok] and
    leaves the resource table as it was. *)
Theorem prune_sets_valid_flag (w : world) (rs : list (pointer * resource))
        (argv : nat -> ERL_NIF_TERM) (p : pointer) (worktree : geef_worktree) :
  version_gate w = false ->
  get_worktree rs (argv 0%nat) = Some (p, worktree) ->
  (forall opts,
      Z.land (prune_flags opts) (GIT_WORKTREE_PRUNE_VALID w) = GIT_WORKTREE_PRUNE_VALID w ->
      0 <= git_worktree_prune w (worktree_worktree worktree) opts) ->
  let opts := {| prune_version := prune_version (GIT_WORKTREE_PRUNE_OPTIONS_INIT w);
                 prune_flags := Z.lor (prune_flags (GIT_WORKTREE_PRUNE_OPTIONS_INIT w))
                                      (GIT_WORKTREE_PRUNE_VALID w) |} in
  Z.land (prune_flags opts) (GIT_WORKTREE_PRUNE_VALID w) = GIT_WORKTREE_PRUNE_VALID w /\
  calls (snd (run_prune w rs argv)) =
    [C_git_worktree_prune (worktree_worktree worktree) opts
       (git_worktree_prune w (worktree_worktree worktree) opts)] /\
  fst (run_prune w rs argv) = atoms.ok /\
  resources (snd (run_prune w rs argv)) = rs.
Proof.
  intros Hg Hw Hengine opts.
  assert (Hflag : Z.land (prune_flags opts) (GIT_WORKTREE_PRUNE_VALID w)
                  = GIT_WORKTREE_PRUNE_VALID w) by apply land_lor_flag.
  split; [exact Hflag |].
  specialize (Hengine opts Hflag).
  destruct (run_prune w rs argv) as [t s'] eqn:E. cbn [fst snd].
  nif_unfold_in E. rewrite Hg, Hw in E. cbv beta iota zeta in E.
  fold opts in E.
  destruct (git_worktree_prune w (worktree_worktree worktree) opts <? 0) eqn:B.
  - apply Z.ltb_lt in B. lia.
  - injection E as <- <-. repeat split.
Qed.

Lemma prune_sets_valid_flag_witness :
  Z.land (Z.lor 0 1) 1 = 1 /\
  calls (snd (run_prune libgit2_0_28 one_worktree prune_args)) =
    [C_git_worktree_prune 88 {| prune_version := 1; prune_flags := Z.lor 0 1 |} 0] /\
  fst (run_prune libgit2_0_28 one_worktree prune_args) = atoms.ok /\
  resources (snd (run_prune libgit2_0_28 one_worktree prune_args)) = one_worktree.
Proof.
  apply (prune_sets_valid_flag libgit2_0_28 one_worktree prune_args 200
           {| worktree_repo := 100; worktree_worktree := 88 |}).
  - reflexivity.
  - reflexivity.
  - intros opts H. simpl in *. rewrite H. simpl. lia.
Defined.

(** ** Creation: validation of name and path *)

(** C6, as amended.  With memory for the handle and for the terminated
    name, a name or a path that is not a binary makes the creation return
    the bad-argument error, and the engine's worktree creation is not
    called. *)
Theorem add_rejects_non_binary (w : world) (rs : list (pointer * resource))
        (argv : nat -> ERL_NIF_TERM) :
  version_gate w = false ->
  enif_alloc_resource w <> None ->
  (forall b, geef_terminate_binary w buf_name b <> None) ->
  enif_inspect_binary (argv 1%nat) = None \/ enif_inspect_binary (argv 2%nat) = None ->
  fst (run_add w rs argv) = enif_make_badarg /\
  count is_worktree_add (calls (snd (run_add w rs argv))) = 0%nat.
Proof.
  intros Hg Ha Hn Hbad.
  destruct (run_add w rs argv) as [t s'] eqn:E. cbn [fst snd].
  nif_unfold_in E. rewrite Hg in E.
  nif_paths E.
  all: try (split; reflexivity).
  all: try congruence.
  all: try (exfalso; eapply Hn; eassumption).
  all: destruct Hbad; congruence.
Qed.

Lemma add_rejects_non_binary_witness :
  let argv := create_args (Atom "feature-x") (binary "/tmp/wt1") atoms.undefined in
  fst (run_add libgit2_0_28 one_repository argv) = enif_make_badarg /\
  count is_worktree_add (calls (snd (run_add libgit2_0_28 one_repository argv))) = 0%nat.
Proof.
  intros argv.
  apply (add_rejects_non_binary libgit2_0_28 one_repository argv).
  - reflexivity.
  - simpl. discriminate.
  - intros b. simpl. discriminate.
  - left. reflexivity.
Defined.

(** C6, as stated, fails: an empty name is a binary like any other.  It is
    terminated and handed to the engine, which decides; when the engine
    accepts it the caller gets a handle. *)
Lemma add_empty_name_counterexample :
  let argv := create_args (Binary []) (binary "/tmp/wt1") atoms.undefined in
  enif_inspect_binary (argv 1%nat) = Some [] /\
  fst (run_add libgit2_0_28 one_repository argv) = Tuple2 atoms.ok (Resource 200) /\
  fst (run_add libgit2_0_28 one_repository argv) <> enif_make_badarg /\
  filter is_worktree_add (calls (snd (run_add libgit2_0_28 one_repository argv))) =
    [C_git_worktree_add 5 [x00] (list_byte_of_string "/tmp/wt1" ++ [x00])
       {| add_version := 1; add_lock := 0; add_ref := None |} 0 88].
Proof. repeat split. discriminate. Qed.

(** X19.  Neither the name nor the path is looked into: whatever binaries they
    are, once the earlier stages are through the engine's worktree creation
    is called on their terminated bytes. *)
Lemma add_forwards_any_binary (w : world) (rs : list (pointer * resource))
      (argv : nat -> ERL_NIF_TERM) (p : pointer) (repo : geef_repository)
      (n n' d d' : ErlNifBinary) :
  version_gate w = false ->
  get_repository rs (argv 0%nat) = Some (p, repo) ->
  enif_alloc_resource w <> None ->
  enif_inspect_binary (argv 1%nat) = Some n ->
  geef_terminate_binary w buf_name n = Some n' ->
  enif_inspect_binary (argv 2%nat) = Some d ->
  geef_terminate_binary w buf_path d = Some d' ->
  enif_is_identical (argv 3%nat) atoms.undefined = true ->
  exists rc out,
    git_worktree_add w (repository_repo repo) n' d' (GIT_WORKTREE_ADD_OPTIONS_INIT w)
    = (rc, out) /\
    In (C_git_worktree_add (repository_repo repo) n' d'
          (GIT_WORKTREE_ADD_OPTIONS_INIT w) rc out)
       (calls (snd (run_add w rs argv))).
Proof.
  intros Hg Hr Ha Hn Hn' Hd Hd' Hu.
  destruct (run_add w rs argv) as [t s'] eqn:E. cbn [fst snd].
  nif_unfold_in E. rewrite Hg, Hr in E. cbv beta iota zeta in E.
  destruct (enif_alloc_resource w) as [[q fresh] |]; [| congruence].
  cbv beta iota zeta in E.
  rewrite Hn in E. cbv beta iota zeta in E. rewrite Hn' in E. cbv beta iota zeta in E.
  rewrite Hd in E. cbv beta iota zeta in E. rewrite Hd' in E. cbv beta iota zeta in E.
  rewrite Hu in E. cbv beta iota zeta in E.
  destruct (git_worktree_add w (repository_repo repo) n' d'
              (GIT_WORKTREE_ADD_OPTIONS_INIT w)) as [rc out] eqn:Eadd.
  exists rc, out. split; [reflexivity |].
  nif_paths E; cbn; auto 10.
Qed.

(** ** Creation: the reference argument *)

(** Whatever the input, the options the engine's worktree creation receives
    are the untouched initialiser: nothing the lookup returns reaches them. *)
Lemma add_options_are_the_initialiser (w : world) (rs : list (pointer * resource))
      (argv : nat -> ERL_NIF_TERM) :
  Forall (fun c => match add_options_of c with
                   | Some opts => opts = GIT_WORKTREE_ADD_OPTIONS_INIT w
                   | None => True
                   end)
         (calls (snd (run_add w rs argv))).
Proof.
  destruct (run_add w rs argv) as [t s'] eqn:E. cbn [fst snd].
  nif_unfold_in E.
  destruct (version_gate w); cbv beta iota zeta in E.
  all: nif_paths E; repeat constructor.
Qed.

(** C1 fails on the code.  [create(repo, "feature-x", "/tmp/wt1", "master")]
    with "master" resolving to reference 77: the lookup is made and
    succeeds, the creation succeeds, and the options of the one creation
    call name no reference. *)
Theorem add_drops_resolved_reference :
  let argv := create_args (binary "feature-x") (binary "/tmp/wt1") (binary "master") in
  let log := calls (snd (run_add libgit2_0_28 one_repository argv)) in
  fst (run_add libgit2_0_28 one_repository argv) = Tuple2 atoms.ok (Resource 200) /\
  In (C_git_reference_lookup 5 (list_byte_of_string "master" ++ [x00]) 0 77) log /\
  map add_options_of (filter is_worktree_add log) =
    [Some {| add_version := 1; add_lock := 0; add_ref := None |}] /\
  ~ In (Some {| add_version := 1; add_lock := 0; add_ref := Some 77 |})
       (map add_options_of log).
Proof.
  cbv zeta. repeat split.
  - cbn. auto 10.
  - cbn. intuition discriminate.
Qed.

(** C3 fails on the code.  The same call on an engine whose worktree
    creation fails: the lookup has produced reference 77, the error is
    returned, and [git_reference_free] was never called.  The successful
    run frees it once. *)
Theorem add_failure_leaks_reference :
  let argv := create_args (binary "feature-x") (binary "/tmp/wt1") (binary "master") in
  let failing := run_add (sample_world 0 28 0 (-1) terminate_ok) one_repository argv in
  let passing := run_add libgit2_0_28 one_repository argv in
  fst failing = geef_error /\
  In (C_git_reference_lookup 5 (list_byte_of_string "master" ++ [x00]) 0 77)
     (calls (snd failing)) /\
  count (is_reference_free 77) (calls (snd failing)) = 0%nat /\
  count (is_reference_free 77) (calls (snd passing)) = 1%nat.
Proof.
  cbv zeta. repeat split. cbn. auto 10.
Qed.

(** C10 fails on the code.  On the successful run with a reference name,
    [enif_release_binary(&ref_bin)] is called twice: once after the lookup
    and once more before the handle is returned. *)
Theorem add_releases_reference_name_twice :
  let argv := create_args (binary "feature-x") (binary "/tmp/wt1") (binary "master") in
  let log := calls (snd (run_add libgit2_0_28 one_repository argv)) in
  fst (run_add libgit2_0_28 one_repository argv) = Tuple2 atoms.ok (Resource 200) /\
  count (is_release_binary buf_ref) log = 2%nat /\
  count (is_release_binary buf_name) log = 1%nat /\
  count (is_release_binary buf_path) log = 1%nat.
Proof. cbv zeta. repeat split. Qed.

(** ** Creation: what failures leave behind *)

(** C4 fails on the code.  A name that is not a binary, and an engine that
    refuses the creation: in both runs the handle object allocated at the
    start is still in the resource table when the error is returned, and
    [enif_release_resource] was never called on it; in the second run the
    terminated name and path are not released either. *)
Theorem add_failure_leaks_handle :
  let bad_name := run_add libgit2_0_28 one_repository
                    (create_args (Atom "feature-x") (binary "/tmp/wt1") atoms.undefined) in
  let refused := run_add (sample_world 0 28 0 (-1) terminate_ok) one_repository
                   (create_args (binary "feature-x") (binary "/tmp/wt1") atoms.undefined) in
  (fst bad_name = enif_make_badarg /\
   calls (snd bad_name) = [C_enif_alloc_resource (Some 200)] /\
   find_resource 200 (resources (snd bad_name)) <> None) /\
  (fst refused = geef_error /\
   In (C_enif_alloc_resource (Some 200)) (calls (snd refused)) /\
   count (is_release_resource 200) (calls (snd refused)) = 0%nat /\
   count (is_release_binary buf_name) (calls (snd refused)) = 0%nat /\
   count (is_release_binary buf_path) (calls (snd refused)) = 0%nat /\
   find_resource 200 (resources (snd refused)) <> None).
Proof.
  cbv zeta. repeat split; try discriminate. cbn. auto 10.
Qed.

(** C7 fails on the code.  When the reference name cannot be terminated the
    creation returns the bare atom [error]; the same failure on the name or
    on the path returns what [geef_oom] builds. *)
Theorem add_reference_memory_failure_is_bare_atom :
  let argv := create_args (binary "feature-x") (binary "/tmp/wt1") (binary "master") in
  let on which := fst (run_add (sample_world 0 28 0 0 (terminate_fails_on which))
                               one_repository argv) in
  on buf_ref = Atom "error" /\
  on buf_name = geef_oom /\
  on buf_path = geef_oom /\
  enif_is_identical (on buf_ref) (on buf_name) = false.
Proof. cbv zeta. repeat split. Qed.

(** ** The version gate *)

(** With a libgit2 older than 0.27 neither NIF calls the engine. *)
Lemma gate_makes_no_engine_call (w : world) (rs : list (pointer * resource))
      (argv : nat -> ERL_NIF_TERM) :
  version_gate w = true ->
  count is_engine_call (calls (snd (run_add w rs argv))) = 0%nat /\
  count is_engine_call (calls (snd (run_prune w rs argv))) = 0%nat.
Proof.
  intros Hg. split.
  - destruct (run_add w rs argv) as [t s'] eqn:E. cbn [fst snd].
    nif_unfold_in E. rewrite Hg in E. nif_paths E; reflexivity.
  - destruct (run_prune w rs argv) as [t s'] eqn:E. cbn [fst snd].
    nif_unfold_in E. rewrite Hg in E. nif_paths E; reflexivity.
Qed.

(** C2 fails on the code.  Built against libgit2 0.26, both NIFs answer
    every call with the tuple [{ok, <<"libgit2 version >= 0.27.x required">>}]:
    a value tagged [ok], not one of the error values.  No engine call is
    made. *)
Theorem gate_answers_ok_tuple (rs : list (pointer * resource))
        (argv : nat -> ERL_NIF_TERM) :
  let message := binary "libgit2 version >= 0.27.x required" in
  version_gate libgit2_0_26 = true /\
  fst (run_add libgit2_0_26 rs argv) = Tuple2 (Atom "ok") message /\
  fst (run_prune libgit2_0_26 rs argv) = Tuple2 (Atom "ok") message /\
  is_error_return (fst (run_add libgit2_0_26 rs argv)) = false /\
  is_error_return (fst (run_prune libgit2_0_26 rs argv)) = false /\
  count is_engine_call (calls (snd (run_add libgit2_0_26 rs argv))) = 0%nat /\
  count is_engine_call (calls (snd (run_prune libgit2_0_26 rs argv))) = 0%nat.
Proof. cbv zeta. repeat split. Qed.

(** ** Creation: failing runs release nothing *)

(** Outside the reference-name binary released right after the lookup, a run
    that ends in an error value has released nothing: not the handle object,
    not the reference, not the terminated name or path. *)
Lemma add_failure_releases_nothing (w : world) (rs : list (pointer * resource))
      (argv : nat -> ERL_NIF_TERM) :
  version_gate w = false ->
  is_error_return (fst (run_add w rs argv)) = true ->
  count is_cleanup (calls (snd (run_add w rs argv))) = 0%nat.
Proof.
  intros Hg.
  destruct (run_add w rs argv) as [t s'] eqn:E. cbn [fst snd].
  nif_unfold_in E. rewrite Hg in E.
  nif_paths E; intros He; try reflexivity; discriminate He.
Qed.

(** Every successful run that was given a reference name releases the
    reference-name binary twice. *)
Lemma add_success_releases_reference_name_twice (w : world)
      (rs : list (pointer * resource)) (argv : nat -> ERL_NIF_TERM) :
  version_gate w = false ->
  enif_is_identical (argv 3%nat) atoms.undefined = false ->
  is_ok_tuple (fst (run_add w rs argv)) = true ->
  count (is_release_binary buf_ref) (calls (snd (run_add w rs argv))) = 2%nat.
Proof.
  intros Hg Hu.
  destruct (run_add w rs argv) as [t s'] eqn:E. cbn [fst snd].
  nif_unfold_in E. rewrite Hg in E.
  nif_paths E; intros Hok; try reflexivity; try discriminate Hok; congruence.
Qed.

(** ** Creation: the handle of a successful run *)

(** When the creation returns [{ok, Handle}], the object the handle names
    holds the worktree the engine created and points back to the repository
    of the call, on which one reference was taken. *)
Lemma add_success_binds_handle (w : world) (rs : list (pointer * resource))
      (argv : nat -> ERL_NIF_TERM) (p : pointer) (repo : geef_repository) :
  version_gate w = false ->
  get_repository rs (argv 0%nat) = Some (p, repo) ->
  is_ok_tuple (fst (run_add w rs argv)) = true ->
  exists q out,
    fst (run_add w rs argv) = Tuple2 atoms.ok (Resource q) /\
    get_worktree (resources (snd (run_add w rs argv))) (Resource q)
    = Some (q, {| worktree_repo := p; worktree_worktree := out |}) /\
    count (is_keep_resource p) (calls (snd (run_add w rs argv))) = 1%nat.
Proof.
  intros Hg Hr.
  destruct (run_add w rs argv) as [t s'] eqn:E. cbn [fst snd].
  nif_unfold_in E. rewrite Hg, Hr in E. cbv beta iota zeta in E.
  nif_paths E; intros Hok; try discriminate Hok.
  all: eexists _, _; split; [reflexivity |].
  all: repeat (progress (cbn; rewrite ?Z.eqb_refl)); split; reflexivity.
Qed.

(** * Further properties of the three functions *)

(** ** Pruning, whatever the engine answers *)

(** X1.  On a valid worktree handle the prune makes one call, the engine's prune
    on the handle's worktree with the options of lines 105-106; it returns
    [ok] when the engine's return code is not negative and what [geef_error]
    builds when it is, and the resource table is as before. *)
Theorem prune_run (w : world) (rs : list (pointer * resource))
        (argv : nat -> ERL_NIF_TERM) (p : pointer) (worktree : geef_worktree) :
  version_gate w = false ->
  get_worktree rs (argv 0%nat) = Some (p, worktree) ->
  let rc := git_worktree_prune w (worktree_worktree worktree) (prune_options w) in
  run_prune w rs argv =
    (if rc <? 0 then geef_error else atoms.ok,
     {| resources := rs;
        calls := [C_git_worktree_prune (worktree_worktree worktree) (prune_options w) rc] |}).
Proof.
  intros Hg Hw rc. subst rc. unfold prune_options.
  destruct (run_prune w rs argv) as [t s'] eqn:E.
  nif_unfold_in E. rewrite Hg, Hw in E. cbv beta iota zeta in E.
  match type of E with
  | context [?x <? 0] => destruct (x <? 0)
  end; injection E as <- <-; reflexivity.
Qed.

Lemma prune_run_witness :
  run_prune libgit2_0_28 one_worktree prune_args =
    (atoms.ok,
     {| resources := one_worktree;
        calls := [C_git_worktree_prune 88 {| prune_version := 1; prune_flags := 1 |} 0] |}).
Proof.
  apply (prune_run libgit2_0_28 one_worktree prune_args 200
           {| worktree_repo := 100; worktree_worktree := 88 |}); reflexivity.
Defined.

(** X2.  A first argument that does not name a worktree object (an atom, a
    binary, a repository handle) makes the prune return the bad-argument
    error with nothing called and nothing changed. *)
Theorem prune_rejects_non_worktree (w : world) (rs : list (pointer * resource))
        (argv : nat -> ERL_NIF_TERM) :
  version_gate w = false ->
  get_worktree rs (argv 0%nat) = None ->
  run_prune w rs argv = (enif_make_badarg, initial rs).
Proof.
  intros Hg Hw.
  destruct (run_prune w rs argv) as [t s'] eqn:E.
  nif_unfold_in E. rewrite Hg, Hw in E. cbv beta iota zeta in E.
  injection E as <- <-. reflexivity.
Qed.

Lemma prune_rejects_non_worktree_witness :
  run_prune libgit2_0_28 one_worktree (args [Resource 100]) =
    (enif_make_badarg, initial one_worktree).
Proof.
  apply (prune_rejects_non_worktree libgit2_0_28 one_worktree (args [Resource 100]));
    reflexivity.
Defined.

(** X3.  Pruning ends nothing: on every input, in every build, the resource
    table is left as it was, no resource object is allocated, kept or
    released, no worktree is freed, and the engine's prune is the only
    engine call there can be. *)
Theorem prune_destroys_nothing (w : world) (rs : list (pointer * resource))
        (argv : nat -> ERL_NIF_TERM) :
  resources (snd (run_prune w rs argv)) = rs /\
  count is_lifetime_call (calls (snd (run_prune w rs argv))) = 0%nat /\
  count is_cleanup (calls (snd (run_prune w rs argv))) = 0%nat /\
  (count is_engine_call (calls (snd (run_prune w rs argv))) <= 1)%nat.
Proof.
  destruct (run_prune w rs argv) as [t s'] eqn:E. cbn [fst snd].
  nif_unfold_in E.
  destruct (version_gate w); cbv beta iota zeta in E.
  all: nif_paths E; cbn; repeat split; auto.
Qed.

(** ** Creation, then pruning and destruction *)

(** Reading an object back from a table that was just written. *)
Ltac table_simpl :=
  repeat (progress (cbn; rewrite ?Z.eqb_refl)).

(** X4.  When the creation returns [{ok, Handle}], the handle names the object
    [enif_alloc_resource] answered; the engine's creation was called once,
    and the object holds the worktree it produced together with the address
    of the repository object of the call. *)
Theorem add_success_handle (w : world) (rs : list (pointer * resource))
        (argv : nat -> ERL_NIF_TERM) (p : pointer) (repo : geef_repository) :
  version_gate w = false ->
  get_repository rs (argv 0%nat) = Some (p, repo) ->
  is_ok_tuple (fst (run_add w rs argv)) = true ->
  exists q fresh out,
    enif_alloc_resource w = Some (q, fresh) /\
    fst (run_add w rs argv) = Tuple2 atoms.ok (Resource q) /\
    map created_worktree (filter is_worktree_add (calls (snd (run_add w rs argv))))
    = [Some out] /\
    get_worktree (resources (snd (run_add w rs argv))) (Resource q)
    = Some (q, {| worktree_repo := p; worktree_worktree := out |}).
Proof.
  intros Hg Hr.
  destruct (run_add w rs argv) as [t s'] eqn:E. cbn [fst snd].
  nif_unfold_in E. rewrite Hg, Hr in E. cbv beta iota zeta in E.
  nif_paths E; intros Hok; try discriminate Hok.
  all: eexists _, _, _; split; [reflexivity |].
  all: table_simpl; repeat split; reflexivity.
Qed.

Lemma add_success_handle_witness :
  let argv := create_args (binary "feature-x") (binary "/tmp/wt1") atoms.undefined in
  exists q fresh out,
    enif_alloc_resource libgit2_0_28 = Some (q, fresh) /\
    fst (run_add libgit2_0_28 one_repository argv) = Tuple2 atoms.ok (Resource q) /\
    map created_worktree
        (filter is_worktree_add (calls (snd (run_add libgit2_0_28 one_repository argv))))
    = [Some out] /\
    get_worktree (resources (snd (run_add libgit2_0_28 one_repository argv))) (Resource q)
    = Some (q, {| worktree_repo := 100; worktree_worktree := out |}).
Proof.
  intros argv.
  apply (add_success_handle libgit2_0_28 one_repository argv 100 {| repository_repo := 5 |});
    reflexivity.
Defined.

(** X5.  A handle the creation returned is a valid argument of the prune: run on
    the table the creation left, the prune calls the engine once, on the
    very worktree the engine's creation produced, and answers by the
    engine's return code. *)
Theorem add_then_prune (w : world) (rs : list (pointer * resource))
        (argv : nat -> ERL_NIF_TERM) :
  version_gate w = false ->
  is_ok_tuple (fst (run_add w rs argv)) = true ->
  exists out,
    map created_worktree (filter is_worktree_add (calls (snd (run_add w rs argv))))
    = [Some out] /\
    run_add_then_prune w rs argv =
      (if git_worktree_prune w out (prune_options w) <? 0 then geef_error else atoms.ok,
       {| resources := resources (snd (run_add w rs argv));
          calls := [C_git_worktree_prune out (prune_options w)
                      (git_worktree_prune w out (prune_options w))] |}).
Proof.
  intros Hg. unfold run_add_then_prune, prune_options.
  destruct (run_add w rs argv) as [t s'] eqn:E. cbn [fst snd]. cbv beta iota.
  nif_unfold_in E. rewrite Hg in E.
  nif_paths E; intros Hok; try discriminate Hok.
  all: eexists; split; [reflexivity |].
  all: match goal with
       | |- run_prune ?w' ?rs' ?a = _ => destruct (run_prune w' rs' a) as [t2 s2] eqn:E2
       end.
  all: nif_unfold_in E2; rewrite Hg in E2; cbv beta iota zeta in E2.
  all: repeat (progress
                 (cbn [args nth element2 enif_make_tuple2 get_worktree find_resource
                       update_worktree resources worktree_worktree worktree_repo] in E2;
                  rewrite ?Z.eqb_refl in E2));
       cbv beta iota zeta in E2;
       cbn [worktree_worktree worktree_repo] in E2.
  all: match type of E2 with
       | context [?x <? 0] => destruct (x <? 0)
       end; injection E2 as <- <-;
       repeat (progress (cbn [resources update_worktree worktree_worktree worktree_repo];
                         rewrite ?Z.eqb_refl));
       reflexivity.
Qed.

Lemma add_then_prune_witness :
  let argv := create_args (binary "feature-x") (binary "/tmp/wt1") atoms.undefined in
  exists out,
    map created_worktree
        (filter is_worktree_add (calls (snd (run_add libgit2_0_28 one_repository argv))))
    = [Some out] /\
    run_add_then_prune libgit2_0_28 one_repository argv =
      (if git_worktree_prune libgit2_0_28 out (prune_options libgit2_0_28) <? 0
       then geef_error else atoms.ok,
       {| resources := resources (snd (run_add libgit2_0_28 one_repository argv));
          calls := [C_git_worktree_prune out (prune_options libgit2_0_28)
                      (git_worktree_prune libgit2_0_28 out (prune_options libgit2_0_28))] |}).
Proof.
  intros argv.
  apply (add_then_prune libgit2_0_28 one_repository argv); reflexivity.
Defined.

(** X6.  The destructor of a handle the creation returned gives back what the
    creation took: it releases the repository object of the call, on which
    the creation called [enif_keep_resource] once, and frees the worktree
    the engine's creation produced. *)
Theorem add_then_free (w : world) (rs : list (pointer * resource))
        (argv : nat -> ERL_NIF_TERM) (p : pointer) (repo : geef_repository) :
  version_gate w = false ->
  get_repository rs (argv 0%nat) = Some (p, repo) ->
  is_ok_tuple (fst (run_add w rs argv)) = true ->
  exists out,
    map created_worktree (filter is_worktree_add (calls (snd (run_add w rs argv))))
    = [Some out] /\
    count (is_keep_resource p) (calls (snd (run_add w rs argv))) = 1%nat /\
    run_add_then_free w rs argv
    = Some [C_enif_release_resource p; C_git_worktree_free out].
Proof.
  intros Hg Hr. unfold run_add_then_free.
  destruct (run_add w rs argv) as [t s'] eqn:E. cbn [fst snd]. cbv beta iota.
  nif_unfold_in E. rewrite Hg, Hr in E. cbv beta iota zeta in E.
  nif_paths E; intros Hok; try discriminate Hok.
  all: eexists; split; [reflexivity |].
  all: table_simpl; split; reflexivity.
Qed.

Lemma add_then_free_witness :
  let argv := create_args (binary "feature-x") (binary "/tmp/wt1") (binary "master") in
  exists out,
    map created_worktree
        (filter is_worktree_add (calls (snd (run_add libgit2_0_28 one_repository argv))))
    = [Some out] /\
    count (is_keep_resource 100) (calls (snd (run_add libgit2_0_28 one_repository argv)))
    = 1%nat /\
    run_add_then_free libgit2_0_28 one_repository argv
    = Some [C_enif_release_resource 100; C_git_worktree_free out].
Proof.
  intros argv.
  apply (add_then_free libgit2_0_28 one_repository argv 100 {| repository_repo := 5 |});
    reflexivity.
Defined.

(** ** Creation: the reference count of the repository *)

(** X7.  The creation takes a reference on the repository object exactly when it
    returns a handle: once on a successful run, never on a failing one. *)
Theorem add_keeps_repository_iff_success (w : world) (rs : list (pointer * resource))
        (argv : nat -> ERL_NIF_TERM) (p : pointer) (repo : geef_repository) :
  version_gate w = false ->
  get_repository rs (argv 0%nat) = Some (p, repo) ->
  count (is_keep_resource p) (calls (snd (run_add w rs argv)))
  = if is_ok_tuple (fst (run_add w rs argv)) then 1%nat else 0%nat.
Proof.
  intros Hg Hr.
  destruct (run_add w rs argv) as [t s'] eqn:E. cbn [fst snd].
  nif_unfold_in E. rewrite Hg, Hr in E. cbv beta iota zeta in E.
  nif_paths E; table_simpl; reflexivity.
Qed.

Lemma add_keeps_repository_iff_success_witness :
  let w := sample_world 0 28 0 (-1) terminate_ok in
  let argv := create_args (binary "feature-x") (binary "/tmp/wt1") atoms.undefined in
  count (is_keep_resource 100) (calls (snd (run_add w one_repository argv)))
  = if is_ok_tuple (fst (run_add w one_repository argv)) then 1%nat else 0%nat.
Proof.
  intros w argv.
  apply (add_keeps_repository_iff_success w one_repository argv 100
           {| repository_repo := 5 |}); reflexivity.
Defined.

(** ** Creation: the first argument and the allocation *)

(** X8.  A first argument that does not name a repository object (an atom, a
    binary, a worktree handle) makes the creation return the bad-argument
    error before anything is allocated or called. *)
Theorem add_rejects_non_repository (w : world) (rs : list (pointer * resource))
        (argv : nat -> ERL_NIF_TERM) :
  version_gate w = false ->
  get_repository rs (argv 0%nat) = None ->
  run_add w rs argv = (enif_make_badarg, initial rs).
Proof.
  intros Hg Hr.
  destruct (run_add w rs argv) as [t s'] eqn:E.
  nif_unfold_in E. rewrite Hg, Hr in E. cbv beta iota zeta in E.
  injection E as <- <-. reflexivity.
Qed.

Lemma add_rejects_non_repository_witness :
  let argv := args [Resource 200; binary "feature-x"; binary "/tmp/wt1"; atoms.undefined] in
  run_add libgit2_0_28 one_worktree argv = (enif_make_badarg, initial one_worktree).
Proof.
  intros argv.
  apply (add_rejects_non_repository libgit2_0_28 one_worktree argv); reflexivity.
Defined.

(** X9.  When the runtime has no memory for the handle object, the creation
    returns what [geef_oom] builds; the name, the path and the reference are
    not looked at, the engine is not called and the resource table is as
    before. *)
Theorem add_alloc_failure (w : world) (rs : list (pointer * resource))
        (argv : nat -> ERL_NIF_TERM) (p : pointer) (repo : geef_repository) :
  version_gate w = false ->
  get_repository rs (argv 0%nat) = Some (p, repo) ->
  enif_alloc_resource w = None ->
  run_add w rs argv =
    (geef_oom, {| resources := rs; calls := [C_enif_alloc_resource None] |}).
Proof.
  intros Hg Hr Ha.
  destruct (run_add w rs argv) as [t s'] eqn:E.
  nif_unfold_in E. rewrite Hg, Hr in E. cbv beta iota zeta in E.
  rewrite Ha in E. cbv beta iota zeta in E.
  injection E as <- <-. reflexivity.
Qed.

Lemma add_alloc_failure_witness :
  let w := without_memory libgit2_0_28 in
  let argv := create_args (Atom "not a binary") (binary "/tmp/wt1") atoms.undefined in
  run_add w one_repository argv =
    (geef_oom, {| resources := one_repository; calls := [C_enif_alloc_resource None] |}).
Proof.
  intros w argv.
  apply (add_alloc_failure w one_repository argv 100 {| repository_repo := 5 |});
    reflexivity.
Defined.

(** X10.  The creation leaves every other resource object alone: whatever the
    input and the outcome, an address other than the one
    [enif_alloc_resource] answered holds after the call what it held
    before. *)
Theorem add_preserves_other_resources (w : world) (rs : list (pointer * resource))
        (argv : nat -> ERL_NIF_TERM) (q : pointer) :
  (forall q' fresh, enif_alloc_resource w = Some (q', fresh) -> q' <> q) ->
  find_resource q (resources (snd (run_add w rs argv))) = find_resource q rs.
Proof.
  intros Hq.
  destruct (run_add w rs argv) as [t s'] eqn:E. cbn [fst snd].
  nif_unfold_in E.
  destruct (version_gate w); cbv beta iota zeta in E.
  all: nif_paths E; try reflexivity.
  all: specialize (Hq _ _ eq_refl); apply (proj2 (Z.eqb_neq _ _)) in Hq.
  all: repeat (progress (cbn [resources find_resource update_worktree];
                         rewrite ?Z.eqb_refl, ?Hq));
       reflexivity.
Qed.

Lemma add_preserves_other_resources_witness :
  let argv := create_args (binary "feature-x") (binary "/tmp/wt1") (binary "master") in
  find_resource 100 (resources (snd (run_add libgit2_0_28 one_repository argv)))
  = find_resource 100 one_repository.
Proof.
  intros argv.
  apply (add_preserves_other_resources libgit2_0_28 one_repository argv 100).
  intros q' fresh H. simpl in H. injection H as <- _. discriminate.
Defined.

(** ** Creation: the reference argument, case by case *)

(** X11.  With [undefined] as fourth argument nothing is done about a reference:
    no binary is terminated or released for it, the engine's lookup is not
    called and no reference is freed. *)
Theorem add_without_reference (w : world) (rs : list (pointer * resource))
        (argv : nat -> ERL_NIF_TERM) :
  version_gate w = false ->
  enif_is_identical (argv 3%nat) atoms.undefined = true ->
  count concerns_reference (calls (snd (run_add w rs argv))) = 0%nat.
Proof.
  intros Hg Hu.
  destruct (run_add w rs argv) as [t s'] eqn:E. cbn [fst snd].
  nif_unfold_in E. rewrite Hg in E.
  nif_paths E; try reflexivity; congruence.
Qed.

Lemma add_without_reference_witness :
  let argv := create_args (binary "feature-x") (binary "/tmp/wt1") atoms.undefined in
  count concerns_reference (calls (snd (run_add libgit2_0_28 one_repository argv))) = 0%nat.
Proof.
  intros argv.
  apply (add_without_reference libgit2_0_28 one_repository argv); reflexivity.
Defined.

(** X12.  A fourth argument that is neither [undefined] nor a binary is an error:
    the run ends in an error value and the engine has not been called at
    all. *)
Theorem add_rejects_bad_reference_argument (w : world) (rs : list (pointer * resource))
        (argv : nat -> ERL_NIF_TERM) :
  version_gate w = false ->
  enif_is_identical (argv 3%nat) atoms.undefined = false ->
  enif_inspect_binary (argv 3%nat) = None ->
  is_error_return (fst (run_add w rs argv)) = true /\
  count is_engine_call (calls (snd (run_add w rs argv))) = 0%nat.
Proof.
  intros Hg Hu Hb.
  destruct (run_add w rs argv) as [t s'] eqn:E. cbn [fst snd].
  nif_unfold_in E. rewrite Hg in E.
  nif_paths E; try (split; reflexivity); congruence.
Qed.

Lemma add_rejects_bad_reference_argument_witness :
  let argv := create_args (binary "feature-x") (binary "/tmp/wt1") (Atom "master") in
  is_error_return (fst (run_add libgit2_0_28 one_repository argv)) = true /\
  count is_engine_call (calls (snd (run_add libgit2_0_28 one_repository argv))) = 0%nat.
Proof.
  intros argv.
  apply (add_rejects_bad_reference_argument libgit2_0_28 one_repository argv); reflexivity.
Defined.

(** What the case analysis made of the hypotheses on the input. *)
Ltac known_answers :=
  repeat match goal with
         | H : Some _ = Some _ |- _ => injection H as H; try subst
         | H : Some _ = None |- _ => discriminate H
         | H : None = Some _ |- _ => discriminate H
         | H : true = false |- _ => discriminate H
         | H : false = true |- _ => discriminate H
         end.

(** X13.  A reference name the engine does not resolve stops the creation: the run
    ends in an error value and the engine's worktree creation is never
    called. *)
Theorem add_unresolved_reference_creates_nothing
        (w : world) (rs : list (pointer * resource)) (argv : nat -> ERL_NIF_TERM)
        (p : pointer) (repo : geef_repository) (b b' : ErlNifBinary) :
  version_gate w = false ->
  get_repository rs (argv 0%nat) = Some (p, repo) ->
  enif_is_identical (argv 3%nat) atoms.undefined = false ->
  enif_inspect_binary (argv 3%nat) = Some b ->
  geef_terminate_binary w buf_ref b = Some b' ->
  fst (git_reference_lookup w (repository_repo repo) b') < 0 ->
  is_error_return (fst (run_add w rs argv)) = true /\
  count is_worktree_add (calls (snd (run_add w rs argv))) = 0%nat.
Proof.
  intros Hg Hr Hu Hb Ht Hl.
  destruct (run_add w rs argv) as [t s'] eqn:E. cbn [fst snd].
  nif_unfold_in E. rewrite Hg, Hr in E. cbv beta iota zeta in E.
  nif_paths E; try (split; reflexivity).
  all: known_answers; same_answers; try negative_rc.
Qed.

Lemma add_unresolved_reference_creates_nothing_witness :
  let w := sample_world 0 28 (-1) 0 terminate_ok in
  let argv := create_args (binary "bad") (binary "/tmp/wt2") (binary "nonexistent-branch") in
  is_error_return (fst (run_add w one_repository argv)) = true /\
  count is_worktree_add (calls (snd (run_add w one_repository argv))) = 0%nat.
Proof.
  intros w argv.
  apply (add_unresolved_reference_creates_nothing w one_repository argv
           100 {| repository_repo := 5 |}
           (list_byte_of_string "nonexistent-branch")
           (list_byte_of_string "nonexistent-branch" ++ [x00]));
    try reflexivity.
Defined.

(** X14.  On a successful run with a reference name, the engine is asked once for
    the reference, in the repository of the call and under the terminated
    name; the lookup succeeded, and the reference it produced is freed once
    before the handle is returned. *)
Theorem add_success_frees_reference_once (w : world) (rs : list (pointer * resource))
        (argv : nat -> ERL_NIF_TERM) :
  version_gate w = false ->
  enif_is_identical (argv 3%nat) atoms.undefined = false ->
  is_ok_tuple (fst (run_add w rs argv)) = true ->
  exists p repo b name rc r,
    get_repository rs (argv 0%nat) = Some (p, repo) /\
    enif_inspect_binary (argv 3%nat) = Some b /\
    geef_terminate_binary w buf_ref b = Some name /\
    git_reference_lookup w (repository_repo repo) name = (rc, r) /\
    0 <= rc /\
    filter is_reference_call (calls (snd (run_add w rs argv)))
    = [C_git_reference_lookup (repository_repo repo) name rc r; C_git_reference_free r].
Proof.
  intros Hg Hu.
  destruct (run_add w rs argv) as [t s'] eqn:E. cbn [fst snd].
  nif_unfold_in E. rewrite Hg in E.
  nif_paths E; intros Hok; try discriminate Hok; try congruence.
  eexists _, _, _, _, _, _. repeat split; try eassumption.
  match goal with
  | B : (?z <? 0) = false |- 0 <= ?z => apply Z.ltb_ge in B; exact B
  end.
Qed.

Lemma add_success_frees_reference_once_witness :
  let argv := create_args (binary "feature-x") (binary "/tmp/wt1") (binary "master") in
  exists p repo b name rc r,
    get_repository one_repository (argv 0%nat) = Some (p, repo) /\
    enif_inspect_binary (argv 3%nat) = Some b /\
    geef_terminate_binary libgit2_0_28 buf_ref b = Some name /\
    git_reference_lookup libgit2_0_28 (repository_repo repo) name = (rc, r) /\
    0 <= rc /\
    filter is_reference_call (calls (snd (run_add libgit2_0_28 one_repository argv)))
    = [C_git_reference_lookup (repository_repo repo) name rc r; C_git_reference_free r].
Proof.
  intros argv.
  apply (add_success_frees_reference_once libgit2_0_28 one_repository argv); reflexivity.
Defined.

(** ** Creation: no retries *)

(** X15.  One call of the creation asks the engine at most once for a reference
    and at most once for a worktree, whatever the answers. *)
Theorem add_calls_engine_at_most_once (w : world) (rs : list (pointer * resource))
        (argv : nat -> ERL_NIF_TERM) :
  (count is_reference_lookup (calls (snd (run_add w rs argv))) <= 1)%nat /\
  (count is_worktree_add (calls (snd (run_add w rs argv))) <= 1)%nat.
Proof.
  destruct (run_add w rs argv) as [t s'] eqn:E. cbn [fst snd].
  nif_unfold_in E.
  destruct (version_gate w); cbv beta iota zeta in E.
  all: nif_paths E; cbn; split; auto.
Qed.

(** ** The version gate, in general *)

(** X16.  For version numbers that are not negative, the gate is on exactly for
    the versions 0.0 to 0.26: every 0.27 and later, and every 1.x whatever
    its minor number, compiles the real functions. *)
Theorem version_gate_below_0_27 (w : world) :
  0 <= LIBGIT2_VER_MAJOR w ->
  version_gate w = true <-> LIBGIT2_VER_MAJOR w = 0 /\ LIBGIT2_VER_MINOR w < 27.
Proof.
  intros Hmajor. unfold version_gate.
  rewrite andb_true_iff, !Z.ltb_lt. lia.
Qed.

Lemma version_gate_below_0_27_witness :
  version_gate (sample_world 1 5 0 0 terminate_ok) = true <->
  LIBGIT2_VER_MAJOR (sample_world 1 5 0 0 terminate_ok) = 0 /\
  LIBGIT2_VER_MINOR (sample_world 1 5 0 0 terminate_ok) < 27.
Proof.
  apply (version_gate_below_0_27 (sample_world 1 5 0 0 terminate_ok)).
  simpl. lia.
Defined.

(** X17.  With the gate on, the two functions are one: neither looks at its
    arguments or touches the resource table, and both answer what
    [geef_error] builds when [geef_string_to_bin] fails and the tuple of
    [ok] and the message binary when it does not. *)
Theorem gate_ignores_arguments (w : world) (rs : list (pointer * resource))
        (argv argv' : nat -> ERL_NIF_TERM) :
  version_gate w = true ->
  let answer := geef_string_to_bin w "libgit2 version >= 0.27.x required" in
  run_add w rs argv = run_prune w rs argv' /\
  resources (snd (run_add w rs argv)) = rs /\
  fst (run_add w rs argv) =
    (if fst answer <? 0 then geef_error
     else enif_make_tuple2 atoms.ok (Binary (snd answer))).
Proof.
  intros Hg answer. subst answer.
  destruct (run_add w rs argv) as [t s'] eqn:E.
  destruct (run_prune w rs argv') as [t2 s2] eqn:E2. cbn [fst snd].
  nif_unfold_in E. nif_unfold_in E2. rewrite Hg in E, E2.
  destruct (geef_string_to_bin w "libgit2 version >= 0.27.x required") as [rc b].
  cbv beta iota zeta in E, E2. cbn [fst snd].
  destruct (rc <? 0); cbv beta iota zeta in E, E2;
    injection E as <- <-; injection E2 as <- <-; repeat split.
Qed.

Lemma gate_ignores_arguments_witness :
  let argv := create_args (binary "feature-x") (binary "/tmp/wt1") atoms.undefined in
  let answer := geef_string_to_bin libgit2_0_26 "libgit2 version >= 0.27.x required" in
  run_add libgit2_0_26 one_repository argv = run_prune libgit2_0_26 one_repository prune_args /\
  resources (snd (run_add libgit2_0_26 one_repository argv)) = one_repository /\
  fst (run_add libgit2_0_26 one_repository argv) =
    (if fst answer <? 0 then geef_error
     else enif_make_tuple2 atoms.ok (Binary (snd answer))).
Proof.
  intros argv.
  apply (gate_ignores_arguments libgit2_0_26 one_repository argv prune_args); reflexivity.
Defined.

(** ** Instances of the general facts on creation *)

Lemma add_error_iff_stage_fails_witness :
  let argv := create_args (binary "feature-x") (Atom "/tmp/wt1") atoms.undefined in
  is_error_return (fst (run_add libgit2_0_28 one_repository argv)) = true <->
  creation_fails libgit2_0_28 one_repository argv.
Proof.
  intros argv.
  apply (add_error_iff_stage_fails libgit2_0_28 one_repository argv); reflexivity.
Defined.

Lemma add_forwards_any_binary_witness :
  let argv := create_args (Binary []) (Binary []) atoms.undefined in
  exists rc out,
    git_worktree_add libgit2_0_28 5 [x00] [x00]
      (GIT_WORKTREE_ADD_OPTIONS_INIT libgit2_0_28) = (rc, out) /\
    In (C_git_worktree_add 5 [x00] [x00] (GIT_WORKTREE_ADD_OPTIONS_INIT libgit2_0_28) rc out)
       (calls (snd (run_add libgit2_0_28 one_repository argv))).
Proof.
  intros argv.
  apply (add_forwards_any_binary libgit2_0_28 one_repository argv
           100 {| repository_repo := 5 |} [] [x00] [] [x00]);
    try reflexivity.
  simpl. discriminate.
Defined.

(** ** Creation: the life of the handle object on a successful run *)

(** X20.  A successful run allocates one object, makes the term for it, then drops
    its own reference to the object and takes one on the repository, in this
    order and nothing else; the terminated name and path are released once
    each. *)
Theorem add_success_handle_life (w : world) (rs : list (pointer * resource))
        (argv : nat -> ERL_NIF_TERM) (p : pointer) (repo : geef_repository) :
  version_gate w = false ->
  get_repository rs (argv 0%nat) = Some (p, repo) ->
  is_ok_tuple (fst (run_add w rs argv)) = true ->
  exists q,
    fst (run_add w rs argv) = Tuple2 atoms.ok (Resource q) /\
    filter is_lifetime_call (calls (snd (run_add w rs argv)))
    = [C_enif_alloc_resource (Some q); C_enif_make_resource q;
       C_enif_release_resource q; C_enif_keep_resource p] /\
    count (is_release_binary buf_name) (calls (snd (run_add w rs argv))) = 1%nat /\
    count (is_release_binary buf_path) (calls (snd (run_add w rs argv))) = 1%nat.
Proof.
  intros Hg Hr.
  destruct (run_add w rs argv) as [t s'] eqn:E. cbn [fst snd].
  nif_unfold_in E. rewrite Hg, Hr in E. cbv beta iota zeta in E.
  nif_paths E; intros Hok; try discriminate Hok.
  all: eexists; repeat split.
Qed.

Lemma add_success_handle_life_witness :
  let argv := create_args (binary "feature-x") (binary "/tmp/wt1") (binary "master") in
  exists q,
    fst (run_add libgit2_0_28 one_repository argv) = Tuple2 atoms.ok (Resource q) /\
    filter is_lifetime_call (calls (snd (run_add libgit2_0_28 one_repository argv)))
    = [C_enif_alloc_resource (Some q); C_enif_make_resource q;
       C_enif_release_resource q; C_enif_keep_resource 100] /\
    count (is_release_binary buf_name)
          (calls (snd (run_add libgit2_0_28 one_repository argv))) = 1%nat /\
    count (is_release_binary buf_path)
          (calls (snd (run_add libgit2_0_28 one_repository argv))) = 1%nat.
Proof.
  intros argv.
  apply (add_success_handle_life libgit2_0_28 one_repository argv 100
           {| repository_repo := 5 |}); reflexivity.
Defined.
